(** * hashfs: content-hashed paths for a file server

    A shallow embedding of [hashfs.go] (package [hashfs]) and the
    properties of its path codec, its memoization store and its request
    handler.

    Go strings are byte sequences: they are modelled as [list ascii]
    ([len] is [length], [s[i]] is [s !! i], [s[i:j]] is [slice]).  The
    package-level [sync.Map] is a [gmap] threaded through every call,
    together with a log of the calls made on the file set. *)

From Stdlib Require Import ZArith Ascii String.
From Stdlib.Strings Require Import Byte.
From stdpp Require Import gmap strings list fin_maps.

Local Open Scope Z_scope.

(** ** Go strings *)

Abbreviation gostring := (list ascii).

Definition str (s : string) : gostring := list_ascii_of_string s.
Coercion str : string >-> list.

Module Strings.

(** [s[i:j]] for [0 <= i <= j <= len(s)]. *)
Definition slice {A} (s : list A) (i j : nat) : list A :=
  take (j - i) (drop i s).

(** [strings.HasPrefix]. *)
Fixpoint HasPrefix (s prefix : gostring) : bool :=
  match prefix, s with
  | [], _ => true
  | p :: prefix', c :: s' => if decide (c = p) then HasPrefix s' prefix' else false
  | _ :: _, [] => false
  end.

(** [strings.TrimPrefix]: [s] without the leading [prefix], or [s]. *)
Definition TrimPrefix (s prefix : gostring) : gostring :=
  if HasPrefix s prefix then drop (length prefix) s else s.

End Strings.

Module Filepath.

(** [os.IsPathSeparator] on Unix. *)
Definition IsPathSeparator (c : ascii) : bool := bool_decide (c = "/"%char).

(** The loop of [filepath.Ext]:
    [for i := n - 1; i >= 0 && !IsPathSeparator(path[i]); i--]. *)
Fixpoint Ext_loop (path : gostring) (n : nat) : gostring :=
  match n with
  | O => []
  | S i =>
      match path !! i with
      | Some c =>
          if IsPathSeparator c then []
          else if bool_decide (c = "."%char) then drop i path
          else Ext_loop path i
      | None => []
      end
  end.

(** [filepath.Ext]: the suffix beginning at the final dot in the final
    element of [path]; empty if there is no dot. *)
Definition Ext (path : gostring) : gostring := Ext_loop path (length path).

End Filepath.

(** ** crypto/sha256

    [sha256.New], [Write] and [Sum(nil)] compute the SHA-256 digest
    (FIPS 180-4) of everything written.  Words are [uint32]: [Z] reduced
    modulo [2^32] after every addition, shift and complement. *)

Module Sha256.

Definition u32 (x : Z) : Z := x mod 2 ^ 32.
Definition add32 (x y : Z) : Z := u32 (x + y).
Definition not32 (x : Z) : Z := u32 (Z.lnot x).

(** [bits.RotateLeft32(x, -k)]. *)
Definition rotr (x k : Z) : Z :=
  Z.lor (Z.shiftr x k) (u32 (Z.shiftl x (32 - k))).

Definition _K : list Z :=
  0x428a2f98 :: 0x71374491 :: 0xb5c0fbcf :: 0xe9b5dba5 ::
  0x3956c25b :: 0x59f111f1 :: 0x923f82a4 :: 0xab1c5ed5 ::
  0xd807aa98 :: 0x12835b01 :: 0x243185be :: 0x550c7dc3 ::
  0x72be5d74 :: 0x80deb1fe :: 0x9bdc06a7 :: 0xc19bf174 ::
  0xe49b69c1 :: 0xefbe4786 :: 0x0fc19dc6 :: 0x240ca1cc ::
  0x2de92c6f :: 0x4a7484aa :: 0x5cb0a9dc :: 0x76f988da ::
  0x983e5152 :: 0xa831c66d :: 0xb00327c8 :: 0xbf597fc7 ::
  0xc6e00bf3 :: 0xd5a79147 :: 0x06ca6351 :: 0x14292967 ::
  0x27b70a85 :: 0x2e1b2138 :: 0x4d2c6dfc :: 0x53380d13 ::
  0x650a7354 :: 0x766a0abb :: 0x81c2c92e :: 0x92722c85 ::
  0xa2bfe8a1 :: 0xa81a664b :: 0xc24b8b70 :: 0xc76c51a3 ::
  0xd192e819 :: 0xd6990624 :: 0xf40e3585 :: 0x106aa070 ::
  0x19a4c116 :: 0x1e376c08 :: 0x2748774c :: 0x34b0bcb5 ::
  0x391c0cb3 :: 0x4ed8aa4a :: 0x5b9cca4f :: 0x682e6ff3 ::
  0x748f82ee :: 0x78a5636f :: 0x84c87814 :: 0x8cc70208 ::
  0x90befffa :: 0xa4506ceb :: 0xbef9a3f7 :: 0xc67178f2 ::
  nil.

(** The eight chaining words [h0 .. h7]. *)
Record digest := Digest {
  h0 : Z; h1 : Z; h2 : Z; h3 : Z; h4 : Z; h5 : Z; h6 : Z; h7 : Z
}.

Definition init : digest :=
  Digest 0x6a09e667 0xbb67ae85 0x3c6ef372 0xa54ff53a
         0x510e527f 0x9b05688c 0x1f83d9ab 0x5be0cd19.

Definition byteZ (b : byte) : Z := Z.of_N (Byte.to_N b).

(** [uint32(p[j])<<24 | uint32(p[j+1])<<16 | uint32(p[j+2])<<8 | uint32(p[j+3])]. *)
Definition be32 (p : list byte) (j : nat) : Z :=
  let at_ k := byteZ (nth (j + k) p "000"%byte) in
  Z.lor (Z.lor (Z.lor (Z.shiftl (at_ 0%nat) 24) (Z.shiftl (at_ 1%nat) 16))
               (Z.shiftl (at_ 2%nat) 8))
        (at_ 3%nat).

(** [w[i]] for [i >= 16], appended to the schedule built so far. *)
Definition schedule_step (w : list Z) : list Z :=
  let i := length w in
  let v1 := nth (i - 2) w 0 in
  let t1 := Z.lxor (Z.lxor (rotr v1 17) (rotr v1 19)) (Z.shiftr v1 10) in
  let v2 := nth (i - 15) w 0 in
  let t2 := Z.lxor (Z.lxor (rotr v2 7) (rotr v2 18)) (Z.shiftr v2 3) in
  w ++ [add32 (add32 (add32 t1 (nth (i - 7) w 0)) t2) (nth (i - 16) w 0)].

Definition schedule (p : list byte) : list Z :=
  Nat.iter 48 schedule_step (map (fun i => be32 p (i * 4)) (seq 0 16)).

(** One iteration of the compression loop on the working variables. *)
Definition round (s : digest) (kw : Z * Z) : digest :=
  let '(Digest a b c d e f g h) := s in
  let t1 :=
    add32 (add32 (add32 (add32 h
      (Z.lxor (Z.lxor (rotr e 6) (rotr e 11)) (rotr e 25)))
      (Z.lxor (Z.land e f) (Z.land (not32 e) g)))
      (fst kw)) (snd kw) in
  let t2 :=
    add32 (Z.lxor (Z.lxor (rotr a 2) (rotr a 13)) (rotr a 22))
          (Z.lxor (Z.lxor (Z.land a b) (Z.land a c)) (Z.land b c)) in
  Digest (add32 t1 t2) a b c (add32 d t1) e f g.

(** [blockGeneric] on one 64-byte chunk. *)
Definition block (dig : digest) (p : list byte) : digest :=
  let s := fold_left round (combine _K (schedule p)) dig in
  Digest (add32 (h0 dig) (h0 s)) (add32 (h1 dig) (h1 s))
         (add32 (h2 dig) (h2 s)) (add32 (h3 dig) (h3 s))
         (add32 (h4 dig) (h4 s)) (add32 (h5 dig) (h5 s))
         (add32 (h6 dig) (h6 s)) (add32 (h7 dig) (h7 s)).

(** [for len(p) >= chunk { ...; p = p[chunk:] }]; [n] bounds the number
    of chunks. *)
Fixpoint blocks (n : nat) (dig : digest) (p : list byte) : digest :=
  match n with
  | O => dig
  | S n' =>
      if decide (64 <= length p)%nat
      then blocks n' (block dig (take 64 p)) (drop 64 p)
      else dig
  end.

Definition byte_of_Z (x : Z) : byte :=
  match Byte.of_N (Z.to_N (x mod 256)) with
  | Some b => b
  | None => "000"%byte
  end.

(** Big-endian bytes of an [n]-byte unsigned integer. *)
Fixpoint be_bytes (n : nat) (x : Z) : list byte :=
  match n with
  | O => []
  | S n' => byte_of_Z (Z.shiftr x (8 * Z.of_nat n')) :: be_bytes n' x
  end.

(** [checkSum]: a byte 0x80, zero bytes up to 56 modulo 64, then the
    length in bits as a 64-bit big-endian integer. *)
Definition pad (msg : list byte) : list byte :=
  let len := length msg in
  let t := (len `mod` 64)%nat in
  let zeros := if decide (t < 56)%nat then (55 - t)%nat else (119 - t)%nat in
  msg ++ "128"%byte :: replicate zeros "000"%byte
      ++ be_bytes 8 (Z.of_nat len * 8 mod 2 ^ 64).

Definition sum_bytes (d : digest) : list byte :=
  be_bytes 4 (h0 d) ++ be_bytes 4 (h1 d) ++ be_bytes 4 (h2 d)
    ++ be_bytes 4 (h3 d) ++ be_bytes 4 (h4 d) ++ be_bytes 4 (h5 d)
    ++ be_bytes 4 (h6 d) ++ be_bytes 4 (h7 d).

(** [h := sha256.New(); h.Write(msg); h.Sum(nil)]. *)
Definition Sum256 (msg : list byte) : list byte :=
  let p := pad msg in
  sum_bytes (blocks (length p) init p).

End Sha256.

(** ** fmt *)

Module Fmt.

(** [ldigits]. *)
Definition ldigits : gostring := "0123456789abcdefx".

Definition digit (n : N) : ascii := nth (N.to_nat n) ldigits "0"%char.

(** [%x] on a byte slice: [digits[c>>4], digits[c&0xF]] for each byte. *)
Definition hex (bs : list byte) : gostring :=
  flat_map (fun c => [digit (N.shiftr (Byte.to_N c) 4);
                     digit (N.land (Byte.to_N c) 15)]) bs.

End Fmt.


(** ** errors, io/fs and net/http *)

(** The error values that reach this package: the ones the file set
    returns, and the two built here with [fmt.Errorf]. *)
Inductive error :=
  | FsError (msg : gostring)
  | OpenError (cause : error)
  | PathMismatchError (urlpath : gostring).

(** [errors.Unwrap]: only the [%w] verb wraps. *)
Definition Unwrap (e : error) : option error :=
  match e with
  | OpenError cause => Some cause
  | _ => None
  end.

(** An opened [fs.File] as [io.Copy] sees it: the bytes read, then
    [io.EOF] ([None]) or a read error. *)
Record File := mkFile { content : list byte; readErr : option error }.

Inductive opened :=
  | Opened (f : File)
  | OpenFailed (err : error).

Module Http.

Record URL := mkURL { Path : gostring; RawPath : gostring }.
Record Request := mkRequest { Method : gostring; Url : URL }.
Record Response := mkResponse { Code : Z; Body : gostring }.

Definition StatusBadRequest : Z := 400.

(** [http.Error]: the status code, and the message followed by a
    newline ([fmt.Fprintln]) as body. *)
Definition Error (msg : gostring) (code : Z) : Response :=
  mkResponse code (msg ++ ["010"%char]).

(** What a handler did with the request: it wrote the response itself,
    or it called [ServeHTTP] of the wrapped handler with a request. *)
Inductive handled :=
  | Replied (resp : Response)
  | Delegated (r : Request).

End Http.

(** A call that returns, or panics with a value. *)
Inductive outcome (A : Type) :=
  | Returns (a : A)
  | Panics (v : error).
Arguments Returns {A} a.
Arguments Panics {A} v.

(** ** Package hashfs *)

Section HashFS.

(** [fs.FS] values are compared as map keys and opened by name; what
    [Open] returns for a name is fixed by the value. *)
Context {FS : Type} `{Countable FS}.
Variable fsOpen : FS -> gostring -> opened.

(** [strconv.Quote], the [%q] verb. *)
Variable Quote : gostring -> gostring.

(** [err.Error()]. *)
Fixpoint ErrorString (e : error) : gostring :=
  match e with
  | FsError msg => msg
  | OpenError cause => "hashfs: error opening file: " ++ ErrorString cause
  | PathMismatchError urlpath => "hashfs: path mismatch for " ++ Quote urlpath
  end.

Inductive io :=
  | IoOpen (fs : FS) (filename : gostring)
  | IoRead (fs : FS) (filename : gostring).

(** The package state: [cachedHashes], and the calls made on file sets
    so far (most recent first). *)
Record state := mkState {
  cachedHashes : gmap (FS * gostring) gostring;
  trace : list io
}.

Definition initial : state := mkState ∅ [].

Definition log (ev : io) (st : state) : state :=
  mkState (cachedHashes st) (ev :: trace st).

(** [cachedHashes.Store(key, value)]. *)
Definition Store (key : FS * gostring) (value : gostring) (st : state) : state :=
  mkState (<[key := value]> (cachedHashes st)) (trace st).

(** [fmt.Sprintf("%s.%x%s", filename[0:len(filename)-len(ext)], hashBytes[:6], ext)]. *)
Definition newPath (filename : gostring) (hashBytes : list byte) : gostring :=
  let ext := Filepath.Ext filename in
  Strings.slice filename 0 (length filename - length ext)
    ++ "." ++ Fmt.hex (Strings.slice hashBytes 0 6) ++ ext.

Definition MaybePath (fs : FS) (filename : gostring) (st : state)
  : (gostring * option error) * state :=
  match cachedHashes st !! (fs, filename) with
  | Some urlpath => ((urlpath, None), st)
  | None =>
      let st := log (IoOpen fs filename) st in
      match fsOpen fs filename with
      | OpenFailed err => (([], Some (OpenError err)), st)
      | Opened f =>
          let st := log (IoRead fs filename) st in
          match readErr f with
          | Some err => (([], Some err), st)
          | None =>
              let newP := newPath filename (Sha256.Sum256 (content f)) in
              ((newP, None), Store (fs, filename) newP st)
          end
      end
  end.

Definition Path (fs : FS) (filename : gostring) (st : state)
  : outcome gostring * state :=
  let '((hashed, err), st) := MaybePath fs filename st in
  match err with
  | Some e => (Panics e, st)
  | None => (Returns hashed, st)
  end.

(** The string surgery of [Unhashed]: the value of [filename]. *)
Definition unhashedName (urlpath : gostring) : gostring :=
  let urlpathL := length urlpath in
  let ext := Filepath.Ext urlpath in
  let extL := length ext in
  let hash := Filepath.Ext (Strings.slice urlpath 0 (urlpathL - extL)) in
  let '(hash, ext, extL) :=
    if decide (hash = []) then (ext, [], 0%nat) else (hash, ext, extL) in
  Strings.slice urlpath 0 (urlpathL - extL - length hash) ++ ext.

Definition Unhashed (fs : FS) (urlpath : gostring) (st : state)
  : (gostring * option error) * state :=
  let filename := unhashedName urlpath in
  let '((expectedPath, err), st) := MaybePath fs filename st in
  match err with
  | Some e => (([], Some e), st)
  | None =>
      if decide (expectedPath = urlpath) then ((filename, None), st)
      else (([], Some (PathMismatchError urlpath)), st)
  end.

(** The handler [FileServer(fs)] applied to a request. *)
Definition FileServer (fs : FS) (r : Http.Request) (st : state)
  : Http.handled * state :=
  let '((filepath, err), st) :=
    Unhashed fs (Strings.TrimPrefix (Http.Path (Http.Url r)) "/") st in
  match err with
  | Some e =>
      (Http.Replied (Http.Error (ErrorString e) Http.StatusBadRequest), st)
  | None =>
      let r := Http.mkRequest (Http.Method r)
                 (Http.mkURL ("/" ++ filepath) (Http.RawPath (Http.Url r))) in
      if decide (Http.RawPath (Http.Url r) = [])
      then (Http.Delegated r, st)
      else
        let '((rawpath, err), st) :=
          Unhashed fs (Strings.TrimPrefix (Http.RawPath (Http.Url r)) "/") st in
        match err with
        | Some e =>
            (Http.Replied (Http.Error (ErrorString e) Http.StatusBadRequest), st)
        | None =>
            let r := Http.mkRequest (Http.Method r)
                       (Http.mkURL ("/" ++ rawpath) (Http.RawPath (Http.Url r))) in
            (Http.Delegated r, st)
        end
  end.

(** *** Runs of the package

    The calls a client can make, and the states they lead to from the
    initial one. *)

Inductive call :=
  | CallMaybePath (fs : FS) (filename : gostring)
  | CallPath (fs : FS) (filename : gostring)
  | CallUnhashed (fs : FS) (urlpath : gostring)
  | CallFileServer (fs : FS) (r : Http.Request).

Definition run (c : call) (st : state) : state :=
  match c with
  | CallMaybePath fs filename => snd (MaybePath fs filename st)
  | CallPath fs filename => snd (Path fs filename st)
  | CallUnhashed fs urlpath => snd (Unhashed fs urlpath st)
  | CallFileServer fs r => snd (FileServer fs r st)
  end.

Definition runs (cs : list call) (st : state) : state :=
  fold_left (fun st c => run c st) cs st.

Inductive reachable : state -> Prop :=
  | reachable_initial : reachable initial
  | reachable_run c st : reachable st -> reachable (run c st).

(** Every stored path is the one computed from the file that the key
    names. *)
Definition sound (st : state) : Prop :=
  forall fs filename urlpath,
    cachedHashes st !! (fs, filename) = Some urlpath ->
    exists data,
      fsOpen fs filename = Opened (mkFile data None)
      /\ urlpath = newPath filename (Sha256.Sum256 data).

End HashFS.

(** ** Vocabulary of the statements *)

(** A byte that is neither the dot nor the separator. *)
Definition plain (c : ascii) : Prop := c <> "."%char /\ c <> "/"%char.

(** The final element of the path (what follows its last separator) has
    a dot. *)
Definition last_element_has_dot (path : gostring) : Prop :=
  exists s t, path = s ++ "."%char :: t /\ "/"%char ∉ t.

(** [ext] is the extension of [filename]: the suffix that starts at the
    last dot of its final element, or the empty string when that element
    has no dot. *)
Definition is_extension (filename ext : gostring) : Prop :=
  (exists s t, filename = s ++ ext /\ ext = "."%char :: t /\ Forall plain t)
  \/ (ext = [] /\ ~ last_element_has_dot filename).

(** The sixteen digits [%x] writes. *)
Definition lower_hex (c : ascii) : Prop := c ∈ str "0123456789abcdef".

(** A path without one leading separator. *)
Definition strip_one_slash (p : gostring) : gostring :=
  match p with
  | c :: rest => if decide (c = "/"%char) then rest else p
  | [] => []
  end.

(** The number of [Open] calls for [filename] on [fs] in a trace. *)
Fixpoint opens {FS : Type} `{EqDecision FS} (fs : FS) (filename : gostring)
    (tr : list (@io FS)) : nat :=
  match tr with
  | [] => 0%nat
  | IoOpen fs' filename' :: tr' =>
      ((if decide (fs' = fs /\ filename' = filename) then 1 else 0)
       + opens fs filename tr')%nat
  | IoRead _ _ :: tr' => opens fs filename tr'
  end.

(** The file set a call is made on. *)
Definition call_fs {FS : Type} (c : @call FS) : FS :=
  match c with
  | CallMaybePath fs _ => fs
  | CallPath fs _ => fs
  | CallUnhashed fs _ => fs
  | CallFileServer fs _ => fs
  end.

(** ** A concrete file set

    Two embedded bundles used to run the package on concrete inputs:
    [assets] holds a script, an empty file and a file whose read fails;
    [escaped] holds two empty files whose names differ only by a percent
    escape. *)

Inductive bundle := assets | escaped.

#[global] Instance bundle_eq_dec : EqDecision bundle.
Proof. solve_decision. Defined.

#[global] Instance bundle_countable : Countable bundle :=
  inj_countable'
    (fun b => match b with assets => true | escaped => false end)
    (fun b : bool => if b then assets else escaped)
    (fun b => match b with assets => eq_refl | escaped => eq_refl end).

Definition ErrNotExist (name : gostring) : error :=
  FsError ("open " ++ name ++ ": file does not exist").

Definition bundleOpen (fs : bundle) (name : gostring) : opened :=
  match fs with
  | assets =>
      if decide (name = "assets/main.js")
      then Opened (mkFile ["a"; "b"; "c"]%byte None)
      else if decide (name = "assets/empty")
      then Opened (mkFile [] None)
      else if decide (name = "assets/torn")
      then Opened (mkFile [] (Some (FsError "unexpected EOF")))
      else OpenFailed (ErrNotExist name)
  | escaped =>
      if decide (name = "a") then Opened (mkFile [] None)
      else if decide (name = "%61") then Opened (mkFile [] None)
      else OpenFailed (ErrNotExist name)
  end.

(** [strconv.Quote] where it is only the two quotation marks: on strings
    of printable ASCII without a quotation mark or a backslash. *)
Definition quotePlain (s : gostring) : gostring :=
  [ascii_of_nat 34] ++ s ++ [ascii_of_nat 34].

(** The request for [target] when its escaped form is the default one. *)
Definition get (target : gostring) : Http.Request :=
  Http.mkRequest "GET" (Http.mkURL target []).

(** * Properties *)

Example Ext_main_js : Filepath.Ext "assets/main.js" = ".js".
Proof. reflexivity. Qed.

Example Ext_no_dot_in_last_element : Filepath.Ext "assets.d/empty" = "".
Proof. reflexivity. Qed.

Example TrimPrefix_once : Strings.TrimPrefix "//a" "/" = "/a".
Proof. reflexivity. Qed.

Example Sum256_empty :
  Fmt.hex (Sha256.Sum256 []) =
  "e3b0c44298fc1c149afbf4c8996fb92427ae41e4649b934ca495991b7852b855".
Proof. vm_compute. reflexivity. Qed.

Example Sum256_abc :
  Fmt.hex (Sha256.Sum256 ["a"; "b"; "c"]%byte) =
  "ba7816bf8f01cfea414140de5dae2223b00361a396177a9cb410ff61f20015ad".
Proof. vm_compute. reflexivity. Qed.

Example Path_main_js :
  fst (Path bundleOpen assets "assets/main.js" initial)
  = Returns (str "assets/main.ba7816bf8f01.js").
Proof. vm_compute. reflexivity. Qed.

Example Path_empty_file :
  fst (Path bundleOpen assets "assets/empty" initial)
  = Returns (str "assets/empty.e3b0c44298fc").
Proof. vm_compute. reflexivity. Qed.

Example Unhashed_after_Path :
  let st := snd (Path bundleOpen assets "assets/main.js" initial) in
  Unhashed bundleOpen assets "assets/main.ba7816bf8f01.js" st
  = ((str "assets/main.js", None), st).
Proof. vm_compute. reflexivity. Qed.

(** ** Facts about [filepath.Ext] *)

Lemma IsPathSeparator_true c :
  Filepath.IsPathSeparator c = true <-> c = "/"%char.
Proof. unfold Filepath.IsPathSeparator. by rewrite bool_decide_eq_true. Qed.

Lemma Ext_loop_plain (path : gostring) (k m : nat) :
  (forall i, (k <= i < k + m)%nat -> exists c, path !! i = Some c /\ plain c) ->
  Filepath.Ext_loop path (k + m) = Filepath.Ext_loop path k.
Proof.
  induction m as [|m IH]; intros Hp.
  - by rewrite Nat.add_0_r.
  - replace (k + S m)%nat with (S (k + m)) by lia. simpl.
    destruct (Hp (k + m)%nat) as (c & -> & Hd & Hs); [lia|].
    unfold Filepath.IsPathSeparator.
    rewrite !bool_decide_eq_false_2 by done.
    apply IH. intros i Hi. apply Hp. lia.
Qed.

Lemma Ext_dot (s t : gostring) :
  Forall plain t -> Filepath.Ext (s ++ "."%char :: t) = "."%char :: t.
Proof.
  intros Ht. unfold Filepath.Ext.
  rewrite length_app. simpl length.
  replace (length s + S (length t))%nat with (S (length s) + length t)%nat by lia.
  rewrite Ext_loop_plain.
  - simpl. rewrite lookup_app_r, Nat.sub_diag by lia. simpl.
    by rewrite drop_app_length.
  - intros i Hi. rewrite lookup_app_r by lia.
    destruct (t !! (i - S (length s))%nat) as [c|] eqn:Hc.
    + exists c. split.
      * replace (i - length s)%nat with (S (i - S (length s))) by lia. done.
      * by eapply Forall_lookup_1.
    + apply lookup_ge_None in Hc. lia.
Qed.

Lemma Ext_loop_found (path : gostring) (n : nat) :
  (n <= length path)%nat ->
  Filepath.Ext_loop path n = [] \/
  exists i, (i < n)%nat /\ path !! i = Some "."%char
    /\ Filepath.Ext_loop path n = drop i path
    /\ forall j, (i < j < n)%nat -> exists c, path !! j = Some c /\ plain c.
Proof.
  induction n as [|n IH]; intros Hn; [by left|].
  simpl. destruct (path !! n) as [c|] eqn:Hc; [|by left].
  destruct (Filepath.IsPathSeparator c) eqn:Hs; [by left|].
  case_bool_decide as Hd.
  - subst c. right. exists n. repeat split; [lia|done|]. intros j Hj. lia.
  - destruct IH as [->|(i & Hi & Hdot & -> & Hpl)]; [lia|by left|].
    right. exists i. repeat split; [lia|done|].
    intros j Hj. destruct (decide (j = n)) as [->|].
    + exists c. repeat split; [done|done|].
      intros ->. by rewrite (proj2 (IsPathSeparator_true _)) in Hs.
    + apply Hpl. lia.
Qed.

(** [Ext] returns the empty string, or a dot and the plain bytes that end
    the path. *)
Lemma Ext_cases (path : gostring) :
  Filepath.Ext path = [] \/
  exists s t, path = s ++ "."%char :: t /\ Forall plain t
    /\ Filepath.Ext path = "."%char :: t.
Proof.
  unfold Filepath.Ext.
  destruct (Ext_loop_found path (length path)) as [->|(i & Hi & Hdot & -> & Hpl)];
    [lia|by left|].
  right. exists (take i path), (drop (S i) path).
  assert (Hsplit : drop i path = "."%char :: drop (S i) path).
  { by apply drop_S. }
  repeat split.
  - by rewrite <- Hsplit, take_drop.
  - apply Forall_lookup_2. intros j c Hj. rewrite lookup_drop in Hj.
    destruct (Hpl (S i + j)%nat) as (c' & Hc' & Hplain).
    + apply lookup_lt_Some in Hj. lia.
    + congruence.
  - done.
Qed.

Lemma Ext_suffix (path : gostring) :
  exists stem, path = stem ++ Filepath.Ext path.
Proof.
  destruct (Ext_cases path) as [->|(s & t & Hp & _ & ->)].
  - exists path. by rewrite app_nil_r.
  - by exists s.
Qed.

(** The last dot of a string, if it has one. *)
Lemma last_dot_split (t : gostring) :
  Forall (fun c => c <> "."%char) t \/
  exists t1 t2, t = t1 ++ "."%char :: t2 /\ Forall (fun c => c <> "."%char) t2.
Proof.
  induction t as [|c t IH]; [by left|].
  destruct IH as [Hno|(t1 & t2 & -> & Hno)].
  - destruct (decide (c = "."%char)) as [->|Hc].
    + right. by exists [], t.
    + left. by constructor.
  - right. by exists (c :: t1), t2.
Qed.

Lemma Ext_nil_iff (path : gostring) :
  Filepath.Ext path = [] <-> ~ last_element_has_dot path.
Proof.
  split.
  - intros Hext (s & t & -> & Hsep).
    assert (Hnosep : forall u v, t = u ++ v -> Forall (fun c => c <> "/"%char) v).
    { intros u v ->. apply Forall_forall. intros c Hc ->.
      apply Hsep. apply elem_of_app. by right. }
    destruct (last_dot_split t) as [Hno|(t1 & t2 & Ht & Hno)].
    + rewrite Ext_dot in Hext; [done|].
      apply Forall_and. split; [done|]. by apply (Hnosep []).
    + subst t.
      replace (s ++ "."%char :: t1 ++ "."%char :: t2)
        with ((s ++ "."%char :: t1) ++ "."%char :: t2) in Hext
        by (by rewrite <- app_assoc).
      rewrite Ext_dot in Hext; [done|].
      apply Forall_and. split; [done|].
      apply (Hnosep (t1 ++ ["."%char])). by rewrite <- app_assoc.
  - intros Hno. destruct (Ext_cases path) as [->|(s & t & -> & Ht & _)]; [done|].
    exfalso. apply Hno. exists s, t. split; [done|].
    intros Hin. eapply Forall_forall in Ht as [_ Hs]; [|done]. done.
Qed.

(** ** Facts about slices, [%x] and the digest *)

Lemma slice_stem {A} (s e : list A) :
  Strings.slice (s ++ e) 0 (length (s ++ e) - length e) = s.
Proof.
  unfold Strings.slice. rewrite length_app, drop_0.
  replace (length s + length e - length e - 0)%nat with (length s) by lia.
  by rewrite take_app_length.
Qed.

Lemma slice_take {A} (s : list A) (n : nat) :
  Strings.slice s 0 n = take n s.
Proof. unfold Strings.slice. by rewrite drop_0, Nat.sub_0_r. Qed.

Lemma lower_hex_plain c : lower_hex c -> plain c.
Proof.
  unfold lower_hex. intros Hc.
  repeat (apply elem_of_cons in Hc as [->|Hc]; [by split|]).
  by apply elem_of_nil in Hc.
Qed.

Lemma hex_lower (bs : list byte) : Forall lower_hex (Fmt.hex bs).
Proof.
  induction bs as [|b bs IH]; [constructor|].
  change (Fmt.hex (b :: bs))
    with (Fmt.digit (N.shiftr (Byte.to_N b) 4)
            :: Fmt.digit (N.land (Byte.to_N b) 15) :: Fmt.hex bs).
  repeat apply Forall_cons_2; [| |done];
    destruct b; vm_compute; set_solver.
Qed.

Lemma hex_length (bs : list byte) :
  length (Fmt.hex bs) = (2 * length bs)%nat.
Proof.
  induction bs as [|b bs IH]; [done|].
  change (Fmt.hex (b :: bs))
    with (Fmt.digit (N.shiftr (Byte.to_N b) 4)
            :: Fmt.digit (N.land (Byte.to_N b) 15) :: Fmt.hex bs).
  simpl. lia.
Qed.

Lemma be_bytes_length (n : nat) (x : Z) :
  length (Sha256.be_bytes n x) = n.
Proof. induction n; simpl; congruence. Qed.

(** [sha256.Size]. *)
Lemma Sum256_length (msg : list byte) : length (Sha256.Sum256 msg) = 32%nat.
Proof.
  unfold Sha256.Sum256, Sha256.sum_bytes.
  by rewrite !length_app, !be_bytes_length.
Qed.

(** ** The codec on strings *)

Lemma newPath_shape (filename : gostring) (hashBytes : list byte) :
  exists stem,
    filename = stem ++ Filepath.Ext filename
    /\ newPath filename hashBytes
       = stem ++ "."%char :: Fmt.hex (take 6 hashBytes) ++ Filepath.Ext filename.
Proof.
  destruct (Ext_suffix filename) as [stem Hstem]. exists stem. split; [done|].
  unfold newPath. rewrite (slice_take hashBytes).
  set (e := Filepath.Ext filename) in *. clearbody e. subst filename.
  by rewrite slice_stem.
Qed.

(** The surgery of [Unhashed] undoes the insertion of a segment of plain
    bytes before the extension. *)
Lemma unhashedName_inserted (stem h ext : gostring) :
  Forall plain h ->
  Filepath.Ext (stem ++ ext) = ext ->
  unhashedName (stem ++ "."%char :: h ++ ext) = stem ++ ext.
Proof.
  intros Hh Hext. unfold unhashedName.
  destruct (Ext_cases (stem ++ ext)) as [Hnil|(s & t & Hs & Ht & Hdot)].
  - assert (ext = []) as -> by congruence.
    rewrite !app_nil_r in *.
    rewrite Ext_dot by done.
    rewrite slice_stem, Hnil.
    rewrite decide_True by done.
    rewrite Nat.sub_0_r, slice_stem. by rewrite app_nil_r.
  - assert (ext = "."%char :: t) as -> by congruence.
    replace (stem ++ "."%char :: h ++ "."%char :: t)
      with ((stem ++ "."%char :: h) ++ "."%char :: t)
      by (by rewrite <- app_assoc).
    rewrite Ext_dot by done.
    rewrite slice_stem, Ext_dot by done.
    rewrite decide_False by done.
    f_equal. unfold Strings.slice.
    rewrite drop_0, !length_app. simpl length.
    rewrite <- app_assoc.
    replace (length stem + S (length h) + S (length t) - S (length t)
             - S (length h) - 0)%nat with (length stem) by lia.
    by rewrite take_app_length.
Qed.

Lemma unhashedName_newPath (filename : gostring) (hashBytes : list byte) :
  unhashedName (newPath filename hashBytes) = filename.
Proof.
  destruct (newPath_shape filename hashBytes) as (stem & Hstem & ->).
  rewrite Hstem at 2.
  apply unhashedName_inserted.
  - eapply Forall_impl; [apply hex_lower|]. apply lower_hex_plain.
  - by rewrite <- Hstem.
Qed.

(** ** The package on states *)

Section HashFSFacts.

Context {FS : Type} `{Countable FS}.
Variable fsOpen : FS -> gostring -> opened.
Variable Quote : gostring -> gostring.

Implicit Types (fs : FS) (st : @state FS _ _) (filename urlpath : gostring).

Lemma MaybePath_hit fs filename urlpath st :
  cachedHashes st !! (fs, filename) = Some urlpath ->
  MaybePath fsOpen fs filename st = ((urlpath, None), st).
Proof. intros Hhit. unfold MaybePath. by rewrite Hhit. Qed.

Lemma MaybePath_open_failed fs filename cause st :
  cachedHashes st !! (fs, filename) = None ->
  fsOpen fs filename = OpenFailed cause ->
  MaybePath fsOpen fs filename st
  = (([], Some (OpenError cause)), log (IoOpen fs filename) st).
Proof. intros Hmiss Hopen. unfold MaybePath. by rewrite Hmiss, Hopen. Qed.

Lemma MaybePath_stored fs filename data st :
  cachedHashes st !! (fs, filename) = None ->
  fsOpen fs filename = Opened (mkFile data None) ->
  MaybePath fsOpen fs filename st
  = ((newPath filename (Sha256.Sum256 data), None),
     Store (fs, filename) (newPath filename (Sha256.Sum256 data))
       (log (IoRead fs filename) (log (IoOpen fs filename) st))).
Proof. intros Hmiss Hopen. unfold MaybePath. by rewrite Hmiss, Hopen. Qed.

(** What a call of [MaybePath] does to the store: nothing, or one new
    entry for a key that had none. *)
Lemma MaybePath_store fs filename st :
  cachedHashes (snd (MaybePath fsOpen fs filename st)) = cachedHashes st
  \/ exists data,
       cachedHashes st !! (fs, filename) = None
       /\ fsOpen fs filename = Opened (mkFile data None)
       /\ cachedHashes (snd (MaybePath fsOpen fs filename st))
          = <[(fs, filename) := newPath filename (Sha256.Sum256 data)]>
              (cachedHashes st).
Proof.
  unfold MaybePath.
  destruct (cachedHashes st !! (fs, filename)) as [p|] eqn:Hc; [by left|].
  destruct (fsOpen fs filename) as [[data [e|]]|e] eqn:Ho; simpl;
    [by left| |by left].
  right. by exists data.
Qed.

Lemma Path_state fs filename st :
  snd (Path fsOpen fs filename st) = snd (MaybePath fsOpen fs filename st).
Proof.
  unfold Path.
  by destruct (MaybePath fsOpen fs filename st) as [[p [e|]] st'].
Qed.

Lemma Unhashed_state fs urlpath st :
  snd (Unhashed fsOpen fs urlpath st)
  = snd (MaybePath fsOpen fs (unhashedName urlpath) st).
Proof.
  unfold Unhashed.
  destruct (MaybePath fsOpen fs (unhashedName urlpath) st) as [[p [e|]] st'];
    [done|]. by case_decide.
Qed.

(** Whatever every call of [MaybePath] preserves, every call of the
    package preserves. *)
Lemma run_preserves (P : state -> Prop) :
  (forall fs filename st, P st -> P (snd (MaybePath fsOpen fs filename st))) ->
  forall c st, P st -> P (run fsOpen Quote c st).
Proof.
  intros HP c st Hst.
  assert (HU : forall fs urlpath st,
             P st -> P (snd (Unhashed fsOpen fs urlpath st))).
  { intros. rewrite Unhashed_state. by apply HP. }
  destruct c as [fs f|fs f|fs u|fs r]; simpl.
  - by apply HP.
  - rewrite Path_state. by apply HP.
  - by apply HU.
  - unfold FileServer.
    pose proof (HU fs (Strings.TrimPrefix (Http.Path (Http.Url r)) "/") st Hst)
      as H1.
    destruct (Unhashed fsOpen fs _ st) as [[p1 [e1|]] st1]; [done|].
    simpl in *. case_decide; [done|].
    pose proof (HU fs (Strings.TrimPrefix (Http.RawPath (Http.Url r)) "/")
                  st1 H1) as H2.
    by destruct (Unhashed fsOpen fs _ st1) as [[p2 [e2|]] st2].
Qed.

Lemma runs_preserves (P : state -> Prop) :
  (forall fs filename st, P st -> P (snd (MaybePath fsOpen fs filename st))) ->
  forall cs st, P st -> P (runs fsOpen Quote cs st).
Proof.
  intros HP cs. induction cs as [|c cs IH]; intros st Hst; [done|].
  simpl. apply IH. by apply run_preserves.
Qed.

Lemma MaybePath_keeps fs filename st key urlpath :
  cachedHashes st !! key = Some urlpath ->
  cachedHashes (snd (MaybePath fsOpen fs filename st)) !! key = Some urlpath.
Proof.
  intros Hk.
  destruct (MaybePath_store fs filename st) as [->|(data & Hmiss & _ & ->)];
    [done|].
  rewrite lookup_insert_ne; [done|]. congruence.
Qed.

Lemma MaybePath_sound fs filename st :
  sound fsOpen st -> sound fsOpen (snd (MaybePath fsOpen fs filename st)).
Proof.
  intros Hs fs' f' p'.
  destruct (MaybePath_store fs filename st) as [->|(data & Hmiss & Ho & ->)];
    [apply Hs|].
  destruct (decide ((fs, filename) = (fs', f'))) as [[= <- <-]|Hne].
  - rewrite lookup_insert_eq. intros [= <-]. by exists data.
  - rewrite lookup_insert_ne by done. apply Hs.
Qed.

Lemma sound_initial : sound fsOpen initial.
Proof. intros fs f p. simpl. by rewrite lookup_empty. Qed.

Lemma reachable_sound st : reachable fsOpen Quote st -> sound fsOpen st.
Proof.
  induction 1 as [|c st _ IH]; [apply sound_initial|].
  revert IH. apply run_preserves. intros. by apply MaybePath_sound.
Qed.

End HashFSFacts.

(** ** The codec, the store and the handler *)

Section PackageProperties.

Context {FS : Type} `{Countable FS}.
Variable fsOpen : FS -> gostring -> opened.
Variable Quote : gostring -> gostring.

Implicit Types (fs : FS) (st : @state FS _ _) (filename urlpath : gostring).

(** A successful [MaybePath] leaves its result stored under the key,
    and the result is a [newPath] of the filename. *)
Lemma MaybePath_ok_inv fs filename hashed st st' :
  sound fsOpen st ->
  MaybePath fsOpen fs filename st = ((hashed, None), st') ->
  cachedHashes st' !! (fs, filename) = Some hashed
  /\ exists data,
       fsOpen fs filename = Opened (mkFile data None)
       /\ hashed = newPath filename (Sha256.Sum256 data).
Proof.
  intros Hs. unfold MaybePath.
  destruct (cachedHashes st !! (fs, filename)) as [p|] eqn:Hc.
  - intros [= <- <-]. split; [done|]. by apply Hs.
  - destruct (fsOpen fs filename) as [[data [e|]]|e] eqn:Ho; simpl;
      intros [= <- <-].
    split; [simpl; by rewrite lookup_insert_eq|by exists data].
Qed.

Lemma MaybePath_of_file fs filename data st :
  sound fsOpen st ->
  fsOpen fs filename = Opened (mkFile data None) ->
  exists st',
    MaybePath fsOpen fs filename st
    = ((newPath filename (Sha256.Sum256 data), None), st').
Proof.
  intros Hs Ho.
  destruct (cachedHashes st !! (fs, filename)) as [p|] eqn:Hc.
  - destruct (Hs _ _ _ Hc) as (data' & Ho' & ->).
    assert (data' = data) as -> by congruence.
    exists st. by apply MaybePath_hit.
  - eexists. by apply MaybePath_stored.
Qed.

Lemma TrimPrefix_slash (p : gostring) :
  Strings.TrimPrefix p "/" = strip_one_slash p.
Proof.
  unfold Strings.TrimPrefix. destruct p as [|c rest]; [done|].
  simpl. destruct (decide (c = "/"%char)); [|done]. by destruct rest.
Qed.

(** C1. Round-trip law: in every state the package can reach, when
    [MaybePath fs filename] succeeds with a hashed path, [Unhashed] of
    that hashed path returns exactly [filename] and no error. *)
Theorem Unhashed_MaybePath_round_trip fs filename hashed st st' :
  reachable fsOpen Quote st ->
  MaybePath fsOpen fs filename st = ((hashed, None), st') ->
  Unhashed fsOpen fs hashed st' = ((filename, None), st').
Proof.
  intros Hr HM. apply reachable_sound in Hr.
  destruct (MaybePath_ok_inv _ _ _ _ _ Hr HM) as (Hstored & data & _ & Hshape).
  unfold Unhashed.
  assert (unhashedName hashed = filename) as ->.
  { subst hashed. apply unhashedName_newPath. }
  rewrite (MaybePath_hit _ _ _ _ _ Hstored).
  by rewrite decide_True.
Qed.

(** C2. Hashed-path wire format: for a file that opens and reads to
    the bytes [data], [MaybePath] returns
    [stem ++ "." ++ digest ++ ext], where [ext] is the extension of the
    filename, [stem] the filename without it, and [digest] the twelve
    lowercase hexadecimal digits of the first six bytes of the SHA-256
    of [data]. *)
Theorem MaybePath_wire_format fs filename data st :
  reachable fsOpen Quote st ->
  fsOpen fs filename = Opened (mkFile data None) ->
  exists stem ext digest st',
    MaybePath fsOpen fs filename st
    = ((stem ++ "." ++ digest ++ ext, None), st')
    /\ filename = stem ++ ext
    /\ is_extension filename ext
    /\ digest = Fmt.hex (take 6 (Sha256.Sum256 data))
    /\ length digest = 12%nat
    /\ Forall lower_hex digest.
Proof.
  intros Hr Ho. apply reachable_sound in Hr.
  destruct (MaybePath_of_file _ _ _ _ Hr Ho) as [st' HM].
  destruct (newPath_shape filename (Sha256.Sum256 data)) as (stem & Hstem & Hp).
  exists stem, (Filepath.Ext filename),
    (Fmt.hex (take 6 (Sha256.Sum256 data))), st'.
  split_and!.
  - by rewrite HM, Hp.
  - done.
  - destruct (Ext_cases filename) as [Hnil|(s & t & Hs & Ht & Hdot)].
    + right. split; [done|]. by apply Ext_nil_iff.
    + left. exists s, t. rewrite Hdot. by split_and!.
  - done.
  - rewrite hex_length, length_take, Sum256_length. done.
  - apply hex_lower.
Qed.

(** C3. Tamper rejection: when the filename reconstructed from a
    hashed URL path [urlpath] resolves to a hashed path other than
    [urlpath], [Unhashed] returns no filename and a path-mismatch
    error for [urlpath]. *)
Theorem Unhashed_rejects_other_path fs urlpath expected st st' :
  MaybePath fsOpen fs (unhashedName urlpath) st = ((expected, None), st') ->
  urlpath <> expected ->
  Unhashed fsOpen fs urlpath st
  = (([], Some (PathMismatchError urlpath)), st').
Proof.
  intros HM Hne. unfold Unhashed. rewrite HM.
  by rewrite decide_False.
Qed.

(** When the reconstructed filename does not resolve, [Unhashed]
    returns the error of the resolution, not a path mismatch. *)
Lemma Unhashed_propagates fs urlpath p e st st' :
  MaybePath fsOpen fs (unhashedName urlpath) st = ((p, Some e), st') ->
  Unhashed fsOpen fs urlpath st = (([], Some e), st').
Proof. intros HM. unfold Unhashed. by rewrite HM. Qed.

(** The same rejection in terms of the file: a path whose reconstructed
    filename opens and reads, and that is not the hashed path of what
    was read, is a path mismatch. *)
Lemma Unhashed_rejects_stale_or_forged fs urlpath data st :
  reachable fsOpen Quote st ->
  fsOpen fs (unhashedName urlpath) = Opened (mkFile data None) ->
  urlpath <> newPath (unhashedName urlpath) (Sha256.Sum256 data) ->
  exists st',
    Unhashed fsOpen fs urlpath st
    = (([], Some (PathMismatchError urlpath)), st').
Proof.
  intros Hr Ho Hne. apply reachable_sound in Hr.
  destruct (MaybePath_of_file _ _ _ _ Hr Ho) as [st' HM].
  exists st'. unfold Unhashed. rewrite HM. by rewrite decide_False.
Qed.

(** C5. Decode-failure short-circuit: the handler calls [Unhashed] on
    the path without one leading separator; when that returns an
    error, the handler replies with status 400 and the error message
    (and a newline) as body, and the wrapped file server is not
    called. *)
Theorem FileServer_bad_request fs (r : Http.Request) p e st st' :
  Unhashed fsOpen fs (strip_one_slash (Http.Path (Http.Url r))) st
  = ((p, Some e), st') ->
  FileServer fsOpen Quote fs r st
  = (Http.Replied (Http.mkResponse 400 (ErrorString Quote e ++ ["010"%char])),
     st').
Proof.
  intros HU. unfold FileServer. by rewrite TrimPrefix_slash, HU.
Qed.

(** C6. Extensionless handling: for a file whose name has no
    extension and whose content is empty, [MaybePath] returns the name
    followed by [.e3b0c44298fc], and [Unhashed] of that path returns
    the name unchanged: the only dot segment of the path is its hash,
    what is left once it is stripped has no further extension. *)
Theorem extensionless_empty_file fs name st :
  reachable fsOpen Quote st ->
  ~ last_element_has_dot name ->
  fsOpen fs name = Opened (mkFile [] None) ->
  let hashed := name ++ ".e3b0c44298fc" in
  (exists st', MaybePath fsOpen fs name st = ((hashed, None), st'))
  /\ (exists st', Unhashed fsOpen fs hashed st = ((name, None), st'))
  /\ Filepath.Ext hashed = ".e3b0c44298fc"
  /\ Filepath.Ext
       (Strings.slice hashed 0 (length hashed - length (Filepath.Ext hashed)))
     = [].
Proof.
  intros Hr Hnodot Ho hashed. apply reachable_sound in Hr.
  apply Ext_nil_iff in Hnodot.
  assert (Hnew : newPath name (Sha256.Sum256 []) = hashed).
  { unfold newPath. rewrite Hnodot. simpl length.
    rewrite Nat.sub_0_r, slice_take, firstn_all, app_nil_r. done. }
  assert (Hext : Filepath.Ext hashed = ".e3b0c44298fc").
  { unfold hashed. apply (Ext_dot name "e3b0c44298fc").
    eapply Forall_impl; [|apply lower_hex_plain].
    apply (hex_lower (take 6 (Sha256.Sum256 []))). }
  destruct (MaybePath_of_file _ _ _ _ Hr Ho) as [st' HM].
  rewrite Hnew in HM.
  split_and!.
  - by exists st'.
  - exists st'. unfold Unhashed.
    assert (unhashedName hashed = name) as ->.
    { rewrite <- Hnew. apply unhashedName_newPath. }
    rewrite HM. by rewrite decide_True.
  - done.
  - rewrite Hext. unfold hashed. by rewrite slice_stem.
Qed.

(** C7. Unknown file: for a filename that the file set cannot open,
    [MaybePath] returns no path and an error that wraps the cause, and
    [Path] panics with that same error. *)
Theorem unknown_file fs filename cause st :
  reachable fsOpen Quote st ->
  fsOpen fs filename = OpenFailed cause ->
  exists err st',
    MaybePath fsOpen fs filename st = (([], Some err), st')
    /\ err = OpenError cause
    /\ Unwrap err = Some cause
    /\ Path fsOpen fs filename st = (Panics err, st').
Proof.
  intros Hr Ho. apply reachable_sound in Hr.
  assert (Hmiss : cachedHashes st !! (fs, filename) = None).
  { destruct (cachedHashes st !! (fs, filename)) as [p|] eqn:Hc; [|done].
    destruct (Hr _ _ _ Hc) as (data & Ho' & _). congruence. }
  exists (OpenError cause), (log (IoOpen fs filename) st).
  pose proof (MaybePath_open_failed fsOpen _ _ _ _ Hmiss Ho) as HM.
  split_and!; [done..|].
  unfold Path. by rewrite HM.
Qed.

(** C8. Memoization invariant: once a key has a hashed path in the
    store, no sequence of calls of the package changes or removes the
    entry, and after any of them [MaybePath] for the key returns the
    stored path and leaves the state as it is: the store is unchanged
    and no call on the file set is added to the trace. *)
Theorem memoized_forever fs filename urlpath st (cs : list call) :
  cachedHashes st !! (fs, filename) = Some urlpath ->
  cachedHashes (runs fsOpen Quote cs st) !! (fs, filename) = Some urlpath
  /\ MaybePath fsOpen fs filename (runs fsOpen Quote cs st)
     = ((urlpath, None), runs fsOpen Quote cs st).
Proof.
  intros Hhit.
  assert (Hkept : cachedHashes (runs fsOpen Quote cs st) !! (fs, filename)
                  = Some urlpath).
  { revert Hhit.
    apply (runs_preserves fsOpen Quote
             (fun st => cachedHashes st !! (fs, filename) = Some urlpath)).
    intros. by apply MaybePath_keeps. }
  split; [done|]. by apply MaybePath_hit.
Qed.

(** C9. Encode-wrapper equivalence: when [MaybePath] succeeds, [Path]
    returns the same string and leaves the same state. *)
Theorem Path_eq_MaybePath fs filename hashed st st' :
  MaybePath fsOpen fs filename st = ((hashed, None), st') ->
  Path fsOpen fs filename st = (Returns hashed, st').
Proof. intros HM. unfold Path. by rewrite HM. Qed.

(** C10. Error atomicity of resolution: when [MaybePath] returns an
    error, from the open step or from the read, the path it returns is
    the empty string and the store is exactly what it was. *)
Theorem MaybePath_error_atomic fs filename p e st st' :
  MaybePath fsOpen fs filename st = ((p, Some e), st') ->
  p = []
  /\ cachedHashes st' = cachedHashes st
  /\ ((exists cause, fsOpen fs filename = OpenFailed cause
                     /\ e = OpenError cause)
      \/ (exists f, fsOpen fs filename = Opened f /\ readErr f = Some e)).
Proof.
  unfold MaybePath.
  destruct (cachedHashes st !! (fs, filename)) as [q|]; [done|].
  destruct (fsOpen fs filename) as [[data [e'|]]|e'] eqn:Ho; simpl;
    intros [= <- <- <-]; split_and!; try done.
  - right. by eexists.
  - left. by eexists.
Qed.

(** The request that the handler passes on keeps the raw path it came
    with; when that raw path is not empty, the path is the decoded raw
    path. *)
Lemma FileServer_delegated fs (r r' : Http.Request) st st' :
  FileServer fsOpen Quote fs r st = (Http.Delegated r', st') ->
  Http.RawPath (Http.Url r') = Http.RawPath (Http.Url r)
  /\ (Http.RawPath (Http.Url r) <> [] ->
      Http.Path (Http.Url r')
      = "/" ++ unhashedName
                 (strip_one_slash (Http.RawPath (Http.Url r)))).
Proof.
  unfold FileServer.
  destruct (Unhashed fsOpen fs _ st) as [[p1 [e1|]] st1]; [done|].
  simpl. case_decide as Hraw.
  - intros [= <- <-]. by split.
  - rewrite TrimPrefix_slash. unfold Unhashed.
    destruct (MaybePath fsOpen fs _ st1) as [[p2 [e2|]] st2]; [done|].
    case_decide; [|done]. intros [= <- <-]. by split.
Qed.

End PackageProperties.

(** ** The handler and the raw path *)

(** C4. Raw-path rewrite.  The request for [/%61.e3b0c44298fc] reaches
    the handler with the path [/a.e3b0c44298fc] and the raw path
    [/%61.e3b0c44298fc]; both decode in [escaped].  The request that the
    handler passes on still has the raw path in hashed form, and its
    path is the decoded raw path [/%61], not the decoded path [/a]. *)
Theorem FileServer_raw_path_replaces_path :
  let r := Http.mkRequest "GET"
             (Http.mkURL "/a.e3b0c44298fc" "/%61.e3b0c44298fc") in
  fst (Unhashed bundleOpen escaped "a.e3b0c44298fc" initial)
  = (str "a", None)
  /\ fst (Unhashed bundleOpen escaped "%61.e3b0c44298fc" initial)
     = (str "%61", None)
  /\ fst (FileServer bundleOpen quotePlain escaped r initial)
     = Http.Delegated
         (Http.mkRequest "GET" (Http.mkURL "/%61" "/%61.e3b0c44298fc")).
Proof. vm_compute. by split_and!. Qed.

(** ** The package on the concrete file sets *)

Example GET_hashed_script :
  fst (FileServer bundleOpen quotePlain assets
         (get "/assets/main.ba7816bf8f01.js") initial)
  = Http.Delegated (get "/assets/main.js").
Proof. vm_compute. reflexivity. Qed.

Example GET_hashed_empty_file :
  fst (FileServer bundleOpen quotePlain assets
         (get "/assets/empty.e3b0c44298fc") initial)
  = Http.Delegated (get "/assets/empty").
Proof. vm_compute. reflexivity. Qed.

Example GET_unhashed_script :
  fst (FileServer bundleOpen quotePlain assets (get "/assets/main.js") initial)
  = Http.Replied
      (Http.Error
         "hashfs: error opening file: open assets/main: file does not exist"
         400).
Proof. vm_compute. reflexivity. Qed.

Example GET_forged_hash :
  fst (FileServer bundleOpen quotePlain assets
         (get "/assets/main.000000000000.js") initial)
  = Http.Replied
      (Http.Error
         ("hashfs: path mismatch for "
            ++ quotePlain "assets/main.000000000000.js")
         400).
Proof. vm_compute. reflexivity. Qed.

Example MaybePath_read_error :
  fst (MaybePath bundleOpen assets "assets/torn" initial)
  = ([], Some (FsError "unexpected EOF")).
Proof. vm_compute. reflexivity. Qed.

Lemma Unhashed_MaybePath_round_trip_witness :
  let st' := snd (MaybePath bundleOpen assets "assets/main.js" initial) in
  MaybePath bundleOpen assets "assets/main.js" initial
  = ((str "assets/main.ba7816bf8f01.js", None), st')
  /\ Unhashed bundleOpen assets "assets/main.ba7816bf8f01.js" st'
     = ((str "assets/main.js", None), st').
Proof.
  assert (HM : MaybePath bundleOpen assets "assets/main.js" initial
               = ((str "assets/main.ba7816bf8f01.js", None),
                  snd (MaybePath bundleOpen assets "assets/main.js" initial))).
  { vm_compute. reflexivity. }
  split; [exact HM|].
  exact (Unhashed_MaybePath_round_trip bundleOpen quotePlain assets
           "assets/main.js" "assets/main.ba7816bf8f01.js" initial _
           (reachable_initial bundleOpen quotePlain) HM).
Defined.

Lemma MaybePath_wire_format_witness :
  bundleOpen assets "assets/main.js"
  = Opened (mkFile ["a"; "b"; "c"]%byte None)
  /\ exists stem ext digest st',
       MaybePath bundleOpen assets "assets/main.js" initial
       = ((stem ++ "." ++ digest ++ ext, None), st')
       /\ str "assets/main.js" = stem ++ ext
       /\ is_extension "assets/main.js" ext
       /\ digest = Fmt.hex (take 6 (Sha256.Sum256 ["a"; "b"; "c"]%byte))
       /\ length digest = 12%nat
       /\ Forall lower_hex digest.
Proof.
  split; [reflexivity|].
  apply (MaybePath_wire_format bundleOpen quotePlain assets "assets/main.js"
           ["a"; "b"; "c"]%byte initial).
  - apply reachable_initial.
  - reflexivity.
Defined.

Lemma Unhashed_rejects_other_path_witness :
  let st' := snd (MaybePath bundleOpen assets "assets/main.js" initial) in
  unhashedName "assets/main.000000000000.js" = "assets/main.js"
  /\ Unhashed bundleOpen assets "assets/main.000000000000.js" initial
     = (([], Some (PathMismatchError "assets/main.000000000000.js")), st').
Proof.
  split; [reflexivity|].
  apply (Unhashed_rejects_other_path bundleOpen assets
           "assets/main.000000000000.js" "assets/main.ba7816bf8f01.js").
  - vm_compute. reflexivity.
  - discriminate.
Defined.

Lemma FileServer_bad_request_witness :
  exists st',
    FileServer bundleOpen quotePlain assets
      (get "/assets/main.000000000000.js") initial
    = (Http.Replied
         (Http.mkResponse 400
            (ErrorString quotePlain
               (PathMismatchError "assets/main.000000000000.js")
             ++ ["010"%char])),
       st').
Proof.
  eexists.
  apply (FileServer_bad_request bundleOpen quotePlain assets
           (get "/assets/main.000000000000.js") []).
  vm_compute. reflexivity.
Defined.

Lemma extensionless_empty_file_witness :
  let hashed := str "assets/empty" ++ ".e3b0c44298fc" in
  ~ last_element_has_dot "assets/empty"
  /\ (exists st',
        MaybePath bundleOpen assets "assets/empty" initial
        = ((hashed, None), st'))
  /\ (exists st',
        Unhashed bundleOpen assets hashed initial
        = ((str "assets/empty", None), st'))
  /\ Filepath.Ext hashed = ".e3b0c44298fc"
  /\ Filepath.Ext
       (Strings.slice hashed 0 (length hashed - length (Filepath.Ext hashed)))
     = [].
Proof.
  assert (Hnodot : ~ last_element_has_dot "assets/empty").
  { apply Ext_nil_iff. reflexivity. }
  split; [exact Hnodot|].
  apply (extensionless_empty_file bundleOpen quotePlain assets "assets/empty"
           initial).
  - apply reachable_initial.
  - exact Hnodot.
  - reflexivity.
Defined.

Lemma unknown_file_witness :
  bundleOpen assets "foo" = OpenFailed (ErrNotExist "foo")
  /\ exists err st',
       MaybePath bundleOpen assets "foo" initial = (([], Some err), st')
       /\ err = OpenError (ErrNotExist "foo")
       /\ Unwrap err = Some (ErrNotExist "foo")
       /\ Path bundleOpen assets "foo" initial = (Panics err, st').
Proof.
  split; [reflexivity|].
  apply (unknown_file bundleOpen quotePlain assets "foo" (ErrNotExist "foo")
           initial).
  - apply reachable_initial.
  - reflexivity.
Defined.

Lemma memoized_forever_witness :
  let st := snd (MaybePath bundleOpen assets "assets/main.js" initial) in
  let cs := [CallFileServer assets (get "/assets/main.js");
             CallMaybePath assets "assets/empty";
             CallUnhashed assets "assets/main.000000000000.js";
             CallPath assets "foo"] in
  cachedHashes st !! (assets, str "assets/main.js")
  = Some (str "assets/main.ba7816bf8f01.js")
  /\ cachedHashes (runs bundleOpen quotePlain cs st)
       !! (assets, str "assets/main.js")
     = Some (str "assets/main.ba7816bf8f01.js")
  /\ MaybePath bundleOpen assets "assets/main.js"
       (runs bundleOpen quotePlain cs st)
     = ((str "assets/main.ba7816bf8f01.js", None),
        runs bundleOpen quotePlain cs st).
Proof.
  intros st cs.
  assert (Hhit : cachedHashes st !! (assets, str "assets/main.js")
                 = Some (str "assets/main.ba7816bf8f01.js")).
  { vm_compute. reflexivity. }
  split; [exact Hhit|].
  exact (memoized_forever bundleOpen quotePlain assets "assets/main.js"
           "assets/main.ba7816bf8f01.js" st cs Hhit).
Defined.

Lemma Path_eq_MaybePath_witness :
  let st' := snd (MaybePath bundleOpen assets "assets/empty" initial) in
  MaybePath bundleOpen assets "assets/empty" initial
  = ((str "assets/empty.e3b0c44298fc", None), st')
  /\ Path bundleOpen assets "assets/empty" initial
     = (Returns (str "assets/empty.e3b0c44298fc"), st').
Proof.
  assert (HM : MaybePath bundleOpen assets "assets/empty" initial
               = ((str "assets/empty.e3b0c44298fc", None),
                  snd (MaybePath bundleOpen assets "assets/empty" initial))).
  { vm_compute. reflexivity. }
  split; [exact HM|].
  exact (Path_eq_MaybePath bundleOpen assets "assets/empty"
           "assets/empty.e3b0c44298fc" initial _ HM).
Defined.

Lemma MaybePath_error_atomic_witness :
  let st' := snd (MaybePath bundleOpen assets "assets/torn" initial) in
  MaybePath bundleOpen assets "assets/torn" initial
  = (([], Some (FsError "unexpected EOF")), st')
  /\ cachedHashes st' = cachedHashes (initial (FS := bundle))
  /\ ((exists cause, bundleOpen assets "assets/torn" = OpenFailed cause
                     /\ FsError "unexpected EOF" = OpenError cause)
      \/ (exists f, bundleOpen assets "assets/torn" = Opened f
                    /\ readErr f = Some (FsError "unexpected EOF"))).
Proof.
  assert (HM : MaybePath bundleOpen assets "assets/torn" initial
               = (([], Some (FsError "unexpected EOF")),
                  snd (MaybePath bundleOpen assets "assets/torn" initial))).
  { vm_compute. reflexivity. }
  split; [exact HM|].
  exact (proj2 (MaybePath_error_atomic bundleOpen assets "assets/torn" []
                  (FsError "unexpected EOF") initial _ HM)).
Defined.

(** ** Further properties of the codec *)

(** The surgery of [Unhashed] recovers the filename from the path that
    [MaybePath] builds, for every filename (any number of dots, a
    trailing dot, no dot, separators) and every digest. *)
Theorem codec_round_trip_on_strings (filename : gostring) (hashBytes : list byte) :
  unhashedName (newPath filename hashBytes) = filename.
Proof.
  destruct (newPath_shape filename hashBytes) as (stem & Hstem & ->).
  rewrite Hstem at 2. apply unhashedName_inserted; [|by rewrite <- Hstem].
  eapply Forall_impl; [apply hex_lower|apply lower_hex_plain].
Qed.

(** Two files never share a hashed path: equal hashed paths have equal
    filenames and equal digest segments. *)
Theorem newPath_injective (f1 f2 : gostring) (hb1 hb2 : list byte) :
  newPath f1 hb1 = newPath f2 hb2 ->
  f1 = f2 /\ Fmt.hex (take 6 hb1) = Fmt.hex (take 6 hb2).
Proof.
  intros Heq.
  assert (Hf : f1 = f2).
  { rewrite <- (unhashedName_newPath f1 hb1), Heq.
    apply unhashedName_newPath. }
  split; [done|]. subst f2.
  destruct (newPath_shape f1 hb1) as (s1 & Hs1 & H1).
  destruct (newPath_shape f1 hb2) as (s2 & Hs2 & H2).
  assert (s1 = s2) as <-.
  { apply (app_inv_tail (Filepath.Ext f1)). congruence. }
  rewrite H1, H2 in Heq.
  apply app_inv_head in Heq. injection Heq as Heq.
  by apply app_inv_tail in Heq.
Qed.

Lemma newPath_injective_witness :
  newPath "a.b.c.js" (Sha256.Sum256 []) = newPath "a.b.c.js" (Sha256.Sum256 [])
  /\ str "a.b.c.js" = str "a.b.c.js"
  /\ Fmt.hex (take 6 (Sha256.Sum256 [])) = Fmt.hex (take 6 (Sha256.Sum256 [])).
Proof.
  split; [reflexivity|].
  apply (newPath_injective "a.b.c.js" "a.b.c.js"
           (Sha256.Sum256 []) (Sha256.Sum256 [])).
  reflexivity.
Defined.

(** No slice expression of the package is out of range: in [Unhashed]
    the two lengths taken off the path never exceed it (in either branch
    of the extensionless test), and in [MaybePath] the extension is no
    longer than the filename and the digest has at least six bytes. *)
Theorem slice_bounds_in_range (urlpath : gostring) (data : list byte) :
  let ext := Filepath.Ext urlpath in
  let hash :=
    Filepath.Ext (Strings.slice urlpath 0 (length urlpath - length ext)) in
  (length ext <= length urlpath)%nat
  /\ (length hash + length ext <= length urlpath)%nat
  /\ (6 <= length (Sha256.Sum256 data))%nat.
Proof.
  intros ext hash.
  destruct (Ext_suffix urlpath) as [stem Hstem]. fold ext in Hstem.
  assert (Hrest : Strings.slice urlpath 0 (length urlpath - length ext) = stem).
  { rewrite Hstem at 1 2. apply slice_stem. }
  destruct (Ext_suffix stem) as [stem' Hstem'].
  assert (Hlen : length urlpath = (length stem + length ext)%nat).
  { rewrite Hstem at 1. by rewrite length_app. }
  assert (Hlen' : length stem = (length stem' + length hash)%nat).
  { unfold hash. rewrite Hrest. rewrite Hstem' at 1. by rewrite length_app. }
  rewrite Sum256_length. lia.
Qed.

(** [filepath.Ext] splits every path into a stem and its extension. *)
Theorem Ext_is_extension (path : gostring) :
  (exists stem, path = stem ++ Filepath.Ext path)
  /\ is_extension path (Filepath.Ext path).
Proof.
  split; [apply Ext_suffix|].
  destruct (Ext_cases path) as [Hnil|(s & t & Hs & Ht & Hdot)].
  - right. split; [done|]. by apply Ext_nil_iff.
  - left. exists s, t. rewrite Hdot. by split_and!.
Qed.

Lemma newPath_length (filename : gostring) (data : list byte) :
  length (newPath filename (Sha256.Sum256 data)) = (length filename + 13)%nat.
Proof.
  destruct (newPath_shape filename (Sha256.Sum256 data)) as (stem & Hstem & ->).
  rewrite Hstem at 2.
  rewrite !length_app, length_cons, length_app.
  rewrite hex_length, length_take, Sum256_length. lia.
Qed.

(** ** Further properties of the store and the handler *)

Section MoreProperties.

Context {FS : Type} `{Countable FS}.
Variable fsOpen : FS -> gostring -> opened.
Variable Quote : gostring -> gostring.

Implicit Types (fs : FS) (st : @state FS _ _) (filename urlpath : gostring).

Lemma MaybePath_error_empty fs filename p e st st' :
  MaybePath fsOpen fs filename st = ((p, Some e), st') -> p = [].
Proof.
  unfold MaybePath.
  destruct (cachedHashes st !! (fs, filename)); [done|].
  by destruct (fsOpen fs filename) as [[data [e'|]]|e'];
    simpl; intros [= <- <-].
Qed.

Lemma Unhashed_ok_inv fs urlpath filename st st' :
  Unhashed fsOpen fs urlpath st = ((filename, None), st') ->
  filename = unhashedName urlpath
  /\ MaybePath fsOpen fs filename st = ((urlpath, None), st').
Proof.
  unfold Unhashed.
  destruct (MaybePath fsOpen fs (unhashedName urlpath) st)
    as [[p [e|]] st1] eqn:HM; [done|].
  case_decide as Heq; [|done]. intros [= <- <-]. by subst p.
Qed.

Lemma Unhashed_sound fs urlpath st :
  sound fsOpen st -> sound fsOpen (snd (Unhashed fsOpen fs urlpath st)).
Proof. rewrite Unhashed_state. apply MaybePath_sound. Qed.

(** [Unhashed] accepts nothing but the current hashed path of a file the
    set opens and reads: a path it accepts is the one [MaybePath] builds
    from the returned filename and the SHA-256 of the file's bytes, and
    it is stored under that filename afterwards. *)
Theorem Unhashed_accepts_only_hashed_path fs urlpath filename st st' :
  reachable fsOpen Quote st ->
  Unhashed fsOpen fs urlpath st = ((filename, None), st') ->
  exists data,
    fsOpen fs filename = Opened (mkFile data None)
    /\ urlpath = newPath filename (Sha256.Sum256 data)
    /\ cachedHashes st' !! (fs, filename) = Some urlpath.
Proof.
  intros Hr HU. apply reachable_sound in Hr.
  destruct (Unhashed_ok_inv _ _ _ _ _ HU) as [_ HM].
  destruct (MaybePath_ok_inv fsOpen _ _ _ _ _ Hr HM) as (Hst & data & Ho & Hp).
  by exists data.
Qed.

(** A path that [Unhashed] accepts is thirteen bytes longer than the
    filename it returns (the dot and twelve digits); so the filename
    itself is never accepted as a hashed path of that file. *)
Theorem Unhashed_accepted_length fs urlpath filename st st' :
  reachable fsOpen Quote st ->
  Unhashed fsOpen fs urlpath st = ((filename, None), st') ->
  length urlpath = (length filename + 13)%nat /\ urlpath <> filename.
Proof.
  intros Hr HU. apply reachable_sound in Hr.
  destruct (Unhashed_ok_inv _ _ _ _ _ HU) as [_ HM].
  destruct (MaybePath_ok_inv fsOpen _ _ _ _ _ Hr HM) as (_ & data & _ & ->).
  pose proof (newPath_length filename data) as Hlen.
  split; [done|]. intros Heq. rewrite Heq in Hlen. lia.
Qed.

(** When [Unhashed] returns an error, the filename it returns is empty,
    and the error is either the one [MaybePath] returned for the
    reconstructed filename, or a path mismatch; in the second case the
    store holds, under the reconstructed filename, a path other than
    the one asked for. *)
Theorem Unhashed_error_cases fs urlpath filename e st st' :
  Unhashed fsOpen fs urlpath st = ((filename, Some e), st') ->
  filename = []
  /\ (MaybePath fsOpen fs (unhashedName urlpath) st = (([], Some e), st')
      \/ (e = PathMismatchError urlpath
          /\ exists expected,
               expected <> urlpath
               /\ cachedHashes st' !! (fs, unhashedName urlpath)
                  = Some expected)).
Proof.
  unfold Unhashed.
  destruct (MaybePath fsOpen fs (unhashedName urlpath) st)
    as [[p [e'|]] st1] eqn:HM.
  - intros [= <- <- <-]. split; [done|]. left.
    by rewrite (MaybePath_error_empty _ _ _ _ _ _ HM).
  - case_decide as Hne; [done|]. intros [= <- <- <-]. split; [done|].
    right. split; [done|]. exists p. split; [done|].
    revert HM. unfold MaybePath.
    destruct (cachedHashes st !! (fs, unhashedName urlpath)) as [q|] eqn:Hc.
    + by intros [= <- <-].
    + destruct (fsOpen fs (unhashedName urlpath)) as [[data [e'|]]|e'];
        simpl; intros [= <- <-]. simpl. by rewrite lookup_insert_eq.
Qed.

(** In every state the package can reach, each stored path belongs to a
    file that the set opens and reads, is the hashed path of that file's
    bytes, and decodes to its key: names that do not open are never
    stored. *)
Theorem store_holds_hashed_paths fs filename urlpath st :
  reachable fsOpen Quote st ->
  cachedHashes st !! (fs, filename) = Some urlpath ->
  exists data,
    fsOpen fs filename = Opened (mkFile data None)
    /\ urlpath = newPath filename (Sha256.Sum256 data)
    /\ unhashedName urlpath = filename.
Proof.
  intros Hr Hc. apply reachable_sound in Hr.
  destruct (Hr _ _ _ Hc) as (data & Ho & ->).
  exists data. split_and!; [done..|]. apply unhashedName_newPath.
Qed.

(** A successful [MaybePath] is idempotent: the same call in the state
    it leaves returns the same path and changes nothing, the trace of
    file accesses included. *)
Theorem MaybePath_idempotent fs filename hashed st st' :
  MaybePath fsOpen fs filename st = ((hashed, None), st') ->
  MaybePath fsOpen fs filename st' = ((hashed, None), st').
Proof.
  intros HM. apply MaybePath_hit. revert HM. unfold MaybePath.
  destruct (cachedHashes st !! (fs, filename)) as [p|] eqn:Hc.
  - by intros [= <- <-].
  - destruct (fsOpen fs filename) as [[data [e|]]|e]; simpl;
      intros [= <- <-]. simpl. by rewrite lookup_insert_eq.
Qed.

(** Failures are not memoized: after a call of [MaybePath] that returned
    an error the key is still absent, and the same call returns the same
    error again after opening the file once more. *)
Theorem MaybePath_failure_not_memoized fs filename p e st st' :
  MaybePath fsOpen fs filename st = ((p, Some e), st') ->
  cachedHashes st' !! (fs, filename) = None
  /\ exists st'',
       MaybePath fsOpen fs filename st' = ((p, Some e), st'')
       /\ opens fs filename (trace st'')
          = S (opens fs filename (trace st')).
Proof.
  unfold MaybePath.
  destruct (cachedHashes st !! (fs, filename)) as [q|] eqn:Hc; [done|].
  destruct (fsOpen fs filename) as [[data [e'|]]|e'] eqn:Ho; simpl;
    intros [= <- <- <-]; simpl; rewrite Hc; (split; [done|]);
    eexists; (split; [done|]); simpl; by rewrite decide_True.
Qed.

(** A call of [MaybePath] leaves every other key of the store as it
    was. *)
Theorem MaybePath_frame fs filename (key : FS * gostring) st :
  key <> (fs, filename) ->
  cachedHashes (snd (MaybePath fsOpen fs filename st)) !! key
  = cachedHashes st !! key.
Proof.
  intros Hne.
  destruct (MaybePath_store fsOpen fs filename st)
    as [->|(data & _ & _ & ->)]; [done|].
  by rewrite lookup_insert_ne.
Qed.

(** File sets are separate name spaces: a call of the package on one
    file set, the handler included, leaves the entries of every other
    file set as they were. *)
Theorem run_frame_file_set (c : call) (fs : FS) filename st :
  call_fs c <> fs ->
  cachedHashes (run fsOpen Quote c st) !! (fs, filename)
  = cachedHashes st !! (fs, filename).
Proof.
  intros Hne.
  assert (HM : forall f s,
             cachedHashes (snd (MaybePath fsOpen (call_fs c) f s))
               !! (fs, filename)
             = cachedHashes s !! (fs, filename)).
  { intros f s.
    destruct (MaybePath_store fsOpen (call_fs c) f s)
      as [->|(data & _ & _ & ->)]; [done|].
    rewrite lookup_insert_ne; [done|]. congruence. }
  assert (HU : forall u s,
             cachedHashes (snd (Unhashed fsOpen (call_fs c) u s))
               !! (fs, filename)
             = cachedHashes s !! (fs, filename)).
  { intros u s. rewrite Unhashed_state. apply HM. }
  destruct c as [fs' f|fs' f|fs' u|fs' r]; simpl in *.
  - apply HM.
  - rewrite Path_state. apply HM.
  - apply HU.
  - unfold FileServer.
    pose proof (HU (Strings.TrimPrefix (Http.Path (Http.Url r)) "/") st) as H1.
    destruct (Unhashed fsOpen fs' _ st) as [[p1 [e1|]] st1]; [done|].
    simpl in *. case_decide; [done|].
    pose proof (HU (Strings.TrimPrefix (Http.RawPath (Http.Url r)) "/") st1)
      as H2.
    destruct (Unhashed fsOpen fs' _ st1) as [[p2 [e2|]] st2]; simpl in *;
      congruence.
Qed.



Lemma Unhashed_ok_file fs urlpath filename st st' :
  sound fsOpen st ->
  Unhashed fsOpen fs urlpath st = ((filename, None), st') ->
  exists data,
    fsOpen fs filename = Opened (mkFile data None)
    /\ urlpath = newPath filename (Sha256.Sum256 data).
Proof.
  intros Hs HU.
  destruct (Unhashed_ok_inv _ _ _ _ _ HU) as [_ HM].
  destruct (MaybePath_ok_inv fsOpen _ _ _ _ _ Hs HM) as (_ & data & Ho & Hp).
  by exists data.
Qed.

(** The handler passes on only requests for files of the set: when it
    delegates, the inbound path (less one leading separator) is the
    hashed path of a file that opens and reads, the delegated path is a
    separator and the name of such a file, and the method is kept.
    With an empty raw path the delegated file is the one the path named;
    otherwise it is the one whose hashed path the raw path is. *)
Theorem FileServer_delegates_files_of_the_set fs (r r' : Http.Request) st st' :
  reachable fsOpen Quote st ->
  FileServer fsOpen Quote fs r st = (Http.Delegated r', st') ->
  exists f0 d0 filename data,
    strip_one_slash (Http.Path (Http.Url r)) = newPath f0 (Sha256.Sum256 d0)
    /\ fsOpen fs f0 = Opened (mkFile d0 None)
    /\ Http.Path (Http.Url r') = "/" ++ filename
    /\ fsOpen fs filename = Opened (mkFile data None)
    /\ Http.Method r' = Http.Method r
    /\ (Http.RawPath (Http.Url r) = [] -> filename = f0)
    /\ (Http.RawPath (Http.Url r) <> [] ->
        strip_one_slash (Http.RawPath (Http.Url r))
        = newPath filename (Sha256.Sum256 data)).
Proof.
  intros Hr. apply reachable_sound in Hr.
  unfold FileServer. rewrite !TrimPrefix_slash.
  pose proof (Unhashed_sound fs (strip_one_slash (Http.Path (Http.Url r))) st Hr)
    as Hs1.
  destruct (Unhashed fsOpen fs (strip_one_slash (Http.Path (Http.Url r))) st)
    as [[p1 [e1|]] st1] eqn:HU1; [done|].
  destruct (Unhashed_ok_file _ _ _ _ _ Hr HU1) as (d0 & Ho0 & Hp0).
  simpl in *. case_decide as Hraw.
  - intros [= <- <-]. exists p1, d0, p1, d0. by split_and!.
  - pose proof (TrimPrefix_slash (Http.RawPath (Http.Url r))) as Htrim.
    simpl in Htrim. rewrite Htrim. clear Htrim.
    destruct (Unhashed fsOpen fs
                (strip_one_slash (Http.RawPath (Http.Url r))) st1)
      as [[p2 [e2|]] st2] eqn:HU2; [done|].
    destruct (Unhashed_ok_file _ _ _ _ _ Hs1 HU2) as (d2 & Ho2 & Hp2).
    intros [= <- <-]. exists p1, d0, p2, d2. by split_and!.
Qed.

(** The only response the handler writes itself is a 400 whose body is
    the message of the error (and a newline) that [Unhashed] returned
    for the path or, the path having decoded and the raw path being not
    empty, for the raw path. *)
Theorem FileServer_replies_only_bad_request fs (r : Http.Request) resp st st' :
  FileServer fsOpen Quote fs r st = (Http.Replied resp, st') ->
  Http.Code resp = 400
  /\ exists e,
       Http.Body resp = ErrorString Quote e ++ ["010"%char]
       /\ (Unhashed fsOpen fs (strip_one_slash (Http.Path (Http.Url r))) st
           = (([], Some e), st')
           \/ (Http.RawPath (Http.Url r) <> []
               /\ exists f st1,
                    Unhashed fsOpen fs
                      (strip_one_slash (Http.Path (Http.Url r))) st
                    = ((f, None), st1)
                    /\ Unhashed fsOpen fs
                         (strip_one_slash (Http.RawPath (Http.Url r))) st1
                       = (([], Some e), st'))).
Proof.
  assert (Hempty : forall u s p e s',
             Unhashed fsOpen fs u s = ((p, Some e), s') -> p = []).
  { intros u s p e s'. unfold Unhashed.
    destruct (MaybePath fsOpen fs (unhashedName u) s) as [[q [e'|]] s1].
    - by intros [= <- <- <-].
    - case_decide; [done|]. by intros [= <- <- <-]. }
  unfold FileServer. rewrite !TrimPrefix_slash.
  destruct (Unhashed fsOpen fs (strip_one_slash (Http.Path (Http.Url r))) st)
    as [[p1 [e1|]] st1] eqn:HU1.
  - intros [= <- <-]. split; [done|]. exists e1. split; [done|]. left.
    by rewrite (Hempty _ _ _ _ _ HU1).
  - simpl. case_decide as Hraw; [done|].
    pose proof (TrimPrefix_slash (Http.RawPath (Http.Url r))) as Htrim.
    simpl in Htrim. rewrite Htrim. clear Htrim.
    destruct (Unhashed fsOpen fs
                (strip_one_slash (Http.RawPath (Http.Url r))) st1)
      as [[p2 [e2|]] st2] eqn:HU2; [|done].
    intros [= <- <-]. split; [done|]. exists e2. split; [done|]. right.
    split; [done|]. exists p1, st1. split; [done|].
    pose proof (Hempty _ _ _ _ _ HU2) as ->. exact HU2.
Qed.

(** The handler treats a path with and without one leading separator
    alike, as it does behind [http.StripPrefix]. *)
Theorem FileServer_leading_slash fs (method path raw : gostring) st :
  head path <> Some "/"%char ->
  FileServer fsOpen Quote fs
    (Http.mkRequest method (Http.mkURL ("/" ++ path) raw)) st
  = FileServer fsOpen Quote fs
      (Http.mkRequest method (Http.mkURL path raw)) st.
Proof.
  intros Hhead. unfold FileServer. simpl Http.Url. simpl Http.Path.
  rewrite !TrimPrefix_slash.
  assert (strip_one_slash path = path) as ->.
  { destruct path as [|c rest]; [done|]. simpl.
    case_decide; [|done]. subst c. by destruct Hhead. }
  done.
Qed.

End MoreProperties.

(** ** The further properties on the concrete file sets *)

Lemma Unhashed_accepts_only_hashed_path_witness :
  let st' := snd (Unhashed bundleOpen assets "assets/main.ba7816bf8f01.js"
                    initial) in
  exists data,
    bundleOpen assets "assets/main.js" = Opened (mkFile data None)
    /\ str "assets/main.ba7816bf8f01.js"
       = newPath "assets/main.js" (Sha256.Sum256 data)
    /\ cachedHashes st' !! (assets, str "assets/main.js")
       = Some (str "assets/main.ba7816bf8f01.js").
Proof.
  intros st'.
  apply (Unhashed_accepts_only_hashed_path bundleOpen quotePlain assets
           "assets/main.ba7816bf8f01.js" "assets/main.js" initial st').
  - apply reachable_initial.
  - vm_compute. reflexivity.
Defined.

Lemma Unhashed_accepted_length_witness :
  length (str "assets/empty.e3b0c44298fc")
  = (length (str "assets/empty") + 13)%nat
  /\ str "assets/empty.e3b0c44298fc" <> str "assets/empty".
Proof.
  apply (Unhashed_accepted_length bundleOpen quotePlain assets
           "assets/empty.e3b0c44298fc" "assets/empty" initial
           (snd (Unhashed bundleOpen assets "assets/empty.e3b0c44298fc"
                   initial))).
  - apply reachable_initial.
  - vm_compute. reflexivity.
Defined.

Lemma Unhashed_error_cases_witness :
  let urlpath := str "assets/main.000000000000.js" in
  let st' := snd (Unhashed bundleOpen assets urlpath initial) in
  @nil ascii = []
  /\ (MaybePath bundleOpen assets (unhashedName urlpath) initial
      = (([], Some (PathMismatchError urlpath)), st')
      \/ (PathMismatchError urlpath = PathMismatchError urlpath
          /\ exists expected,
               expected <> urlpath
               /\ cachedHashes st' !! (assets, unhashedName urlpath)
                  = Some expected)).
Proof.
  intros urlpath st'.
  apply (Unhashed_error_cases bundleOpen assets urlpath []
           (PathMismatchError urlpath) initial st').
  vm_compute. reflexivity.
Defined.

Lemma store_holds_hashed_paths_witness :
  exists data,
    bundleOpen assets "assets/main.js" = Opened (mkFile data None)
    /\ str "assets/main.ba7816bf8f01.js"
       = newPath "assets/main.js" (Sha256.Sum256 data)
    /\ unhashedName "assets/main.ba7816bf8f01.js" = "assets/main.js".
Proof.
  apply (store_holds_hashed_paths bundleOpen quotePlain assets
           "assets/main.js" "assets/main.ba7816bf8f01.js"
           (run bundleOpen quotePlain
              (CallFileServer assets (get "/assets/main.ba7816bf8f01.js"))
              initial)).
  - apply reachable_run, reachable_initial.
  - vm_compute. reflexivity.
Defined.

Lemma MaybePath_idempotent_witness :
  let st' := snd (MaybePath bundleOpen assets "assets/main.js" initial) in
  MaybePath bundleOpen assets "assets/main.js" st'
  = ((str "assets/main.ba7816bf8f01.js", None), st').
Proof.
  intros st'.
  apply (MaybePath_idempotent bundleOpen assets "assets/main.js"
           "assets/main.ba7816bf8f01.js" initial st').
  vm_compute. reflexivity.
Defined.

Lemma MaybePath_failure_not_memoized_witness :
  let st' := snd (MaybePath bundleOpen assets "assets/torn" initial) in
  cachedHashes st' !! (assets, str "assets/torn") = None
  /\ exists st'',
       MaybePath bundleOpen assets "assets/torn" st'
       = (([], Some (FsError "unexpected EOF")), st'')
       /\ opens assets "assets/torn" (trace st'')
          = S (opens assets "assets/torn" (trace st')).
Proof.
  intros st'.
  apply (MaybePath_failure_not_memoized bundleOpen assets "assets/torn" []
           (FsError "unexpected EOF") initial st').
  vm_compute. reflexivity.
Defined.

Lemma MaybePath_frame_witness :
  let st := snd (MaybePath bundleOpen assets "assets/main.js" initial) in
  cachedHashes (snd (MaybePath bundleOpen assets "assets/empty" st))
    !! (assets, str "assets/main.js")
  = cachedHashes st !! (assets, str "assets/main.js").
Proof.
  intros st.
  apply (MaybePath_frame bundleOpen assets "assets/empty"
           (assets, str "assets/main.js") st).
  discriminate.
Defined.

Lemma run_frame_file_set_witness :
  let st := snd (MaybePath bundleOpen escaped "a" initial) in
  cachedHashes
    (run bundleOpen quotePlain
       (CallFileServer assets (get "/assets/main.ba7816bf8f01.js")) st)
    !! (escaped, str "a")
  = cachedHashes st !! (escaped, str "a").
Proof.
  intros st.
  apply (run_frame_file_set bundleOpen quotePlain
           (CallFileServer assets (get "/assets/main.ba7816bf8f01.js"))
           escaped "a" st).
  discriminate.
Defined.



Lemma FileServer_delegates_files_of_the_set_witness :
  let r := get "/assets/main.ba7816bf8f01.js" in
  exists f0 d0 filename data,
    strip_one_slash (Http.Path (Http.Url r)) = newPath f0 (Sha256.Sum256 d0)
    /\ bundleOpen assets f0 = Opened (mkFile d0 None)
    /\ Http.Path (Http.Url (get "/assets/main.js")) = "/" ++ filename
    /\ bundleOpen assets filename = Opened (mkFile data None)
    /\ Http.Method (get "/assets/main.js") = Http.Method r
    /\ (Http.RawPath (Http.Url r) = [] -> filename = f0)
    /\ (Http.RawPath (Http.Url r) <> [] ->
        strip_one_slash (Http.RawPath (Http.Url r))
        = newPath filename (Sha256.Sum256 data)).
Proof.
  intros r.
  apply (FileServer_delegates_files_of_the_set bundleOpen quotePlain assets r
           (get "/assets/main.js") initial
           (snd (FileServer bundleOpen quotePlain assets r initial))).
  - apply reachable_initial.
  - vm_compute. reflexivity.
Defined.

Lemma FileServer_replies_only_bad_request_witness :
  let r := Http.mkRequest "GET"
             (Http.mkURL "/a.e3b0c44298fc" "/%62.e3b0c44298fc") in
  let st' := snd (FileServer bundleOpen quotePlain escaped r initial) in
  let resp := Http.Error
                "hashfs: error opening file: open %62: file does not exist"
                400 in
  Http.Code resp = 400
  /\ exists e,
       Http.Body resp = ErrorString quotePlain e ++ ["010"%char]
       /\ (Unhashed bundleOpen escaped
             (strip_one_slash (Http.Path (Http.Url r))) initial
           = (([], Some e), st')
           \/ (Http.RawPath (Http.Url r) <> []
               /\ exists f st1,
                    Unhashed bundleOpen escaped
                      (strip_one_slash (Http.Path (Http.Url r))) initial
                    = ((f, None), st1)
                    /\ Unhashed bundleOpen escaped
                         (strip_one_slash (Http.RawPath (Http.Url r))) st1
                       = (([], Some e), st'))).
Proof.
  intros r st' resp.
  apply (FileServer_replies_only_bad_request bundleOpen quotePlain escaped r
           resp initial st').
  vm_compute. reflexivity.
Defined.

Lemma FileServer_leading_slash_witness :
  FileServer bundleOpen quotePlain assets
    (Http.mkRequest "GET"
       (Http.mkURL ("/" ++ str "assets/main.ba7816bf8f01.js") [])) initial
  = FileServer bundleOpen quotePlain assets
      (Http.mkRequest "GET" (Http.mkURL "assets/main.ba7816bf8f01.js" []))
      initial.
Proof.
  apply (FileServer_leading_slash bundleOpen quotePlain assets "GET"
           "assets/main.ba7816bf8f01.js" [] initial).
  discriminate.
Defined.
